(** * WebsiteDeploymentStack: a shallow embedding of
      [cdk/lib/website-deployment-stack.ts]

    The stack is one constructor that declares a private bucket, an origin
    access identity, a bucket policy statement, a response-headers policy, a
    distribution, a bucket deployment and one output.  The constructor is
    embedded as a computation in a small state-and-error monad over the
    construct tree of the stack; the property records are the ones the
    constructor passes to the framework, optional properties being [option]s.

    Values that only exist once the resources are provisioned (the bucket ARN,
    the canonical user id of the identity, the domain name of the
    distribution) are kept symbolic, as the framework keeps them, and are
    resolved against an assignment of attribute values. *)

From Stdlib Require Import ZArith String Ascii.
From stdpp Require Import base strings list gmap pretty.

Local Open Scope string_scope.
Local Open Scope Z_scope.

(* ===================================================================== *)
(** ** The framework core: tokens, durations, removal policies           *)
(* ===================================================================== *)

Module cdk.

(** A string of the program is either known when the constructor runs or
    refers to an attribute of a declared construct. *)
Inductive Fragment : Type :=
| Lit (s : string)
| Ref (construct attribute : string).

Definition Tokenized : Type := list Fragment.

(** The attribute values the platform assigns at provisioning time. *)
Definition Assignment : Type := string -> string -> string.

Definition resolve_fragment (sigma : Assignment) (f : Fragment) : string :=
  match f with
  | Lit s => s
  | Ref c a => sigma c a
  end.

Definition resolve (sigma : Assignment) (t : Tokenized) : string :=
  foldr (fun f acc => resolve_fragment sigma f +:+ acc) "" t.

Inductive RemovalPolicy : Type :=
| DESTROY | RETAIN | SNAPSHOT | RETAIN_ON_UPDATE_OR_DELETE.

Inductive TimeUnit : Type := Seconds | Minutes | Hours | Days.

Definition inSeconds (u : TimeUnit) : Z :=
  match u with
  | Seconds => 1
  | Minutes => 60
  | Hours => 3600
  | Days => 86400
  end.

Module Duration.
Record t : Type := mk { amount : Z; unit : TimeUnit }.
Definition days (n : Z) : t := mk n Days.
Definition toSeconds (d : t) : Z := amount d * inSeconds (unit d).
End Duration.

Module Environment.
Record t : Type := mk { account : option string; region : option string }.
End Environment.

Module StackProps.
Record t : Type := mk {
  description : option string;
  env : option Environment.t;
  stackName : option string;
  terminationProtection : option bool
}.
End StackProps.

Module CfnOutputProps.
Record t : Type := mk {
  value : Tokenized;
  description : option string;
  exportName : option string
}.
End CfnOutputProps.

End cdk.

(* ===================================================================== *)
(** ** iam: policy statements                                            *)
(* ===================================================================== *)

Module iam.

Inductive Effect : Type := ALLOW | DENY.

Inductive Principal : Type :=
| CanonicalUserPrincipal (canonicalUserId : cdk.Tokenized)
| ArnPrincipal (arn : cdk.Tokenized)
| AnyPrincipal.

Module PolicyStatementProps.
Record t : Type := mk {
  effect : option Effect;
  actions : list string;
  resources : list cdk.Tokenized;
  principals : list Principal
}.
End PolicyStatementProps.

Module PolicyStatement.
Record t : Type := mk {
  effect : Effect;
  actions : list string;
  resources : list cdk.Tokenized;
  principals : list Principal
}.

(** [new iam.PolicyStatement(props)]: a statement whose [effect] is
    omitted is an allow statement (the framework's default). *)
Definition new (props : PolicyStatementProps.t) : t :=
  mk (default ALLOW (PolicyStatementProps.effect props))
     (PolicyStatementProps.actions props)
     (PolicyStatementProps.resources props)
     (PolicyStatementProps.principals props).
End PolicyStatement.

End iam.

(** Statements are compared when a policy document is rendered. *)
#[global] Instance Fragment_eq_dec : EqDecision cdk.Fragment.
Proof. solve_decision. Defined.
#[global] Instance Effect_eq_dec : EqDecision iam.Effect.
Proof. solve_decision. Defined.
#[global] Instance Principal_eq_dec : EqDecision iam.Principal.
Proof. solve_decision. Defined.
#[global] Instance PolicyStatement_eq_dec : EqDecision iam.PolicyStatement.t.
Proof. solve_decision. Defined.

(* ===================================================================== *)
(** ** s3: buckets                                                       *)
(* ===================================================================== *)

Module s3.

Module BlockPublicAccess.
Record t : Type := mk {
  blockPublicAcls : bool;
  blockPublicPolicy : bool;
  ignorePublicAcls : bool;
  restrictPublicBuckets : bool
}.
Definition BLOCK_ALL : t := mk true true true true.
Definition BLOCK_ACLS : t := mk true false true false.
End BlockPublicAccess.

Inductive BucketAccessControl : Type :=
| PRIVATE | PUBLIC_READ | PUBLIC_READ_WRITE | AUTHENTICATED_READ
| LOG_DELIVERY_WRITE | BUCKET_OWNER_READ | BUCKET_OWNER_FULL_CONTROL
| AWS_EXEC_READ.

Inductive ObjectOwnership : Type :=
| BUCKET_OWNER_ENFORCED | BUCKET_OWNER_PREFERRED | OBJECT_WRITER.

Inductive BucketEncryption : Type :=
| UNENCRYPTED | KMS_MANAGED | S3_MANAGED | KMS | DSSE_MANAGED | DSSE.

Module BucketProps.
Record t : Type := mk {
  publicReadAccess : option bool;
  removalPolicy : option cdk.RemovalPolicy;
  autoDeleteObjects : option bool;
  blockPublicAccess : option BlockPublicAccess.t;
  accessControl : option BucketAccessControl;
  objectOwnership : option ObjectOwnership;
  encryption : option BucketEncryption;
  versioned : option bool;
  websiteIndexDocument : option string
}.
End BucketProps.

(** A handle on a declared bucket: the id of its node in the stack. *)
Module Bucket.
Record t : Type := mk { node : string }.
Definition bucketArn (b : t) : cdk.Tokenized := [cdk.Ref (node b) "Arn"].
(** [arnForObjects(keyPattern)] is [`${this.bucketArn}/${keyPattern}`]. *)
Definition arnForObjects (b : t) (keyPattern : string) : cdk.Tokenized :=
  (bucketArn b ++ [cdk.Lit "/"; cdk.Lit keyPattern])%list.
End Bucket.

(** The role of the provider the framework adds to a stack that has a
    bucket with [autoDeleteObjects]. *)
Definition autoDeleteObjectsRoleArn : cdk.Tokenized :=
  [cdk.Ref "Custom::S3AutoDeleteObjectsCustomResourceProvider/Role" "Arn"].

(** What the framework's [Bucket] grants that role on the bucket and on its
    objects, so that it can empty the bucket: changing the bucket policy (to
    stop further writes), reading the metadata of the bucket, listing, and
    deleting objects.  Older versions of the framework grant the last three
    only. *)
Definition autoDeleteObjectsStatement (b : Bucket.t) : iam.PolicyStatement.t :=
  iam.PolicyStatement.new
    (iam.PolicyStatementProps.mk
       None
       ["s3:PutBucketPolicy"; "s3:GetBucket*"; "s3:List*"; "s3:DeleteObject*"]
       [Bucket.bucketArn b; Bucket.arnForObjects b "*"]
       [iam.ArnPrincipal autoDeleteObjectsRoleArn]).

(** What the framework's [Bucket] grants everyone under [publicReadAccess]. *)
Definition publicAccessStatement (b : Bucket.t) : iam.PolicyStatement.t :=
  iam.PolicyStatement.new
    (iam.PolicyStatementProps.mk
       None
       ["s3:GetObject"]
       [Bucket.arnForObjects b "*"]
       [iam.AnyPrincipal]).

End s3.

Module acm.

(** A handle on a certificate ([ICertificate]). *)
Module Certificate.
Record t : Type := mk { certificateArn : cdk.Tokenized }.
End Certificate.

End acm.

(* ===================================================================== *)
(** ** cloudfront: identities, response-headers policies, distributions  *)
(* ===================================================================== *)

Module cloudfront.

(** A handle on a declared origin access identity. *)
Module OriginAccessIdentity.
Record t : Type := mk { node : string }.
Definition cloudFrontOriginAccessIdentityS3CanonicalUserId (i : t)
  : cdk.Tokenized := [cdk.Ref (node i) "S3CanonicalUserId"].
(** The principal the framework grants to, for this identity. *)
Definition grantPrincipal (i : t) : iam.Principal :=
  iam.CanonicalUserPrincipal (cloudFrontOriginAccessIdentityS3CanonicalUserId i).
End OriginAccessIdentity.

Inductive HeadersReferrerPolicy : Type :=
| NO_REFERRER | NO_REFERRER_WHEN_DOWNGRADE | ORIGIN
| ORIGIN_WHEN_CROSS_ORIGIN | SAME_ORIGIN | STRICT_ORIGIN
| STRICT_ORIGIN_WHEN_CROSS_ORIGIN | UNSAFE_URL.

Inductive HeadersFrameOption : Type := DENY | SAMEORIGIN.

Module ResponseHeadersContentSecurityPolicy.
Record t : Type := mk { override : bool; contentSecurityPolicy : string }.
End ResponseHeadersContentSecurityPolicy.

Module ResponseHeadersStrictTransportSecurity.
Record t : Type := mk {
  override : bool;
  accessControlMaxAge : cdk.Duration.t;
  includeSubdomains : option bool;
  preload : option bool
}.
End ResponseHeadersStrictTransportSecurity.

Module ResponseHeadersContentTypeOptions.
Record t : Type := mk { override : bool }.
End ResponseHeadersContentTypeOptions.

Module ResponseHeadersReferrerPolicy.
Record t : Type := mk {
  override : bool;
  referrerPolicy : HeadersReferrerPolicy
}.
End ResponseHeadersReferrerPolicy.

Module ResponseHeadersXSSProtection.
Record t : Type := mk {
  override : bool;
  protection : bool;
  modeBlock : option bool;
  reportUri : option string
}.
End ResponseHeadersXSSProtection.

Module ResponseHeadersFrameOptions.
Record t : Type := mk { override : bool; frameOption : HeadersFrameOption }.
End ResponseHeadersFrameOptions.

Module ResponseSecurityHeadersBehavior.
Record t : Type := mk {
  contentSecurityPolicy : option ResponseHeadersContentSecurityPolicy.t;
  strictTransportSecurity : option ResponseHeadersStrictTransportSecurity.t;
  contentTypeOptions : option ResponseHeadersContentTypeOptions.t;
  referrerPolicy : option ResponseHeadersReferrerPolicy.t;
  xssProtection : option ResponseHeadersXSSProtection.t;
  frameOptions : option ResponseHeadersFrameOptions.t
}.
End ResponseSecurityHeadersBehavior.

Module ResponseHeadersPolicyProps.
Record t : Type := mk {
  comment : option string;
  securityHeadersBehavior : option ResponseSecurityHeadersBehavior.t
}.
End ResponseHeadersPolicyProps.

(** A handle on a declared response-headers policy. *)
Module ResponseHeadersPolicy.
Record t : Type := mk { node : string }.
End ResponseHeadersPolicy.

Inductive SecurityPolicyProtocol : Type :=
| SSL_V3 | TLS_V1 | TLS_V1_2016 | TLS_V1_1_2016
| TLS_V1_2_2018 | TLS_V1_2_2019 | TLS_V1_2_2021.

Inductive HttpMethod : Type :=
| GET | HEAD | OPTIONS | PUT | PATCH | POST | DELETE.

Module AllowedMethods.
Record t : Type := mk { methods : list HttpMethod }.
Definition ALLOW_GET_HEAD : t := mk [GET; HEAD].
Definition ALLOW_GET_HEAD_OPTIONS : t := mk [GET; HEAD; OPTIONS].
Definition ALLOW_ALL : t :=
  mk [GET; HEAD; OPTIONS; PUT; PATCH; POST; DELETE].
End AllowedMethods.

Module ViewerProtocolPolicy.
Inductive t : Type := HTTPS_ONLY | REDIRECT_TO_HTTPS | ALLOW_ALL.
End ViewerProtocolPolicy.

Module ErrorResponse.
Record t : Type := mk {
  httpStatus : Z;
  responseHttpStatus : option Z;
  responsePagePath : option string
}.
End ErrorResponse.

(** What a behavior can be bound to ([IOrigin]); the [origins] module
    below builds the values. *)
Inductive IOrigin : Type :=
| BucketOrigin (bucket : s3.Bucket.t)
               (originAccessIdentity : option OriginAccessIdentity.t)
| HttpOrigin (domainName : string).

Module BehaviorOptions.
Record t : Type := mk {
  origin : IOrigin;
  compress : option bool;
  allowedMethods : option AllowedMethods.t;
  viewerProtocolPolicy : option ViewerProtocolPolicy.t;
  responseHeadersPolicy : option ResponseHeadersPolicy.t
}.
End BehaviorOptions.

Module DistributionProps.
Record t : Type := mk {
  defaultRootObject : option string;
  minimumProtocolVersion : option SecurityPolicyProtocol;
  defaultBehavior : BehaviorOptions.t;
  additionalBehaviors : option (list (string * BehaviorOptions.t));
  errorResponses : option (list ErrorResponse.t);
  certificate : option acm.Certificate.t
}.
End DistributionProps.

Module ViewerCertificate.
Record t : Type := mk {
  acmCertificateArn : cdk.Tokenized;
  minimumProtocolVersion : SecurityPolicyProtocol
}.
End ViewerCertificate.

(** The viewer certificate the framework's [Distribution] renders: there is
    one only when a certificate is declared, and the declared minimum
    protocol version goes into it and nowhere else. *)
Definition renderViewerCertificate (props : DistributionProps.t)
  : option ViewerCertificate.t :=
  (fun c =>
     ViewerCertificate.mk (acm.Certificate.certificateArn c)
       (default TLS_V1_2_2021 (DistributionProps.minimumProtocolVersion props)))
  <$> DistributionProps.certificate props.

(** A handle on a declared distribution. *)
Module Distribution.
Record t : Type := mk { node : string }.
Definition domainName (d : t) : cdk.Tokenized :=
  [cdk.Ref (node d) "DomainName"].
End Distribution.

End cloudfront.

Module origins.

Module S3OriginProps.
Record t : Type := mk {
  originAccessIdentity : option cloudfront.OriginAccessIdentity.t
}.
End S3OriginProps.

(** [new origins.S3Origin(bucket, props)] *)
Definition S3Origin (bucket : s3.Bucket.t) (props : S3OriginProps.t)
  : cloudfront.IOrigin :=
  cloudfront.BucketOrigin bucket (S3OriginProps.originAccessIdentity props).

End origins.

Module s3deploy.

Module Source.
Inductive t : Type :=
| asset (path : string)
| data (objectKey : string) (data : string).
End Source.

Module BucketDeploymentProps.
Record t : Type := mk {
  sources : list Source.t;
  prune : option bool;
  destinationBucket : s3.Bucket.t;
  distribution : option cloudfront.Distribution.t;
  distributionPaths : option (list string)
}.
End BucketDeploymentProps.

End s3deploy.

(* ===================================================================== *)
(** ** The construct tree and the constructor monad                      *)
(* ===================================================================== *)

(** The constructs the stack can hold, each with the properties it was
    declared with.  A bucket also carries the statements of its resource
    policy, which [addToResourcePolicy] extends after the declaration. *)
Inductive Construct : Type :=
| Bucket (props : s3.BucketProps.t) (policy : list iam.PolicyStatement.t)
| OriginAccessIdentity
| ResponseHeadersPolicy (props : cloudfront.ResponseHeadersPolicyProps.t)
| Distribution (props : cloudfront.DistributionProps.t)
| BucketDeployment (props : s3deploy.BucketDeploymentProps.t)
| CfnOutput (props : cdk.CfnOutputProps.t).

(** The state of [this] while the constructor runs: what [super] recorded
    and the children declared so far, oldest first. *)
Record Stack : Type := mkStack {
  nodeScope : list string;
  nodeId : string;
  stackProps : option cdk.StackProps.t;
  children : list (string * Construct)
}.

Inductive Result (A : Type) : Type :=
| Ok (a : A)
| Throw (message : string).
Arguments Ok {A} a.
Arguments Throw {A} message.

Definition Build (A : Type) : Type := Stack -> Result (A * Stack).

Definition ret {A} (a : A) : Build A := fun st => Ok (a, st).

Definition bind {A B} (c : Build A) (k : A -> Build B) : Build B :=
  fun st =>
    match c st with
    | Ok (a, st') => k a st'
    | Throw m => Throw m
    end.

Declare Scope build_scope.
Delimit Scope build_scope with build.
Notation "'const' x ':=' c ';' k" := (bind c (fun x => k))
  (at level 10, x name, c at level 100, k at level 200,
   format "'[v' 'const'  x  ':='  c ';' '/' k ']'")
  : build_scope.
Notation "c ';;' k" := (bind c (fun _ => k))
  (at level 100, k at level 200, right associativity,
   format "'[v' c ';;' '/' k ']'") : build_scope.

Definition has_child (name : string) (st : Stack) : bool :=
  existsb (fun c => String.eqb (fst c) name) (children st).

(** Declaring a construct under [this]: ids are unique within a scope. *)
Definition add_child (name : string) (c : Construct) : Build unit :=
  fun st =>
    if has_child name st
    then Throw ("There is already a Construct with name '" +:+ name +:+ "'")
    else Ok (tt, mkStack (nodeScope st) (nodeId st) (stackProps st)
                         (children st ++ [(name, c)])).

Definition find_child (name : string) (st : Stack) : option Construct :=
  snd <$> List.find (fun c => String.eqb (fst c) name) (children st).

Definition replace_child (name : string) (c : Construct)
  (l : list (string * Construct)) : list (string * Construct) :=
  (fun e => if String.eqb (fst e) name then (name, c) else e) <$> l.

Definition throw {A} (message : string) : Build A := fun _ => Throw message.

(** [bucket.addToResourcePolicy(statement)]: the statement is appended to
    the policy document of the bucket, which is updated in place. *)
Definition addToResourcePolicy (b : s3.Bucket.t)
  (statement : iam.PolicyStatement.t) : Build unit :=
  fun st =>
    match find_child (s3.Bucket.node b) st with
    | Some (Bucket props policy) =>
        Ok (tt, mkStack (nodeScope st) (nodeId st) (stackProps st)
                  (replace_child (s3.Bucket.node b)
                     (Bucket props (policy ++ [statement])) (children st)))
    | _ => Throw "addToResourcePolicy: not a bucket of this stack"
    end.

(** [new s3.Bucket(this, name, props)].  The framework's constructor grants
    public read when [publicReadAccess] is set, which it refuses under a
    block of public policies, and grants its auto-delete role when
    [autoDeleteObjects] is set, which it refuses under a removal policy other
    than [DESTROY]. *)
Definition new_Bucket (name : string) (props : s3.BucketProps.t)
  : Build s3.Bucket.t :=
  let this := s3.Bucket.mk name in
  (add_child name (Bucket props []) ;;
   (if default false (s3.BucketProps.publicReadAccess props)
    then if from_option s3.BlockPublicAccess.blockPublicPolicy false
              (s3.BucketProps.blockPublicAccess props)
         then throw
                "Cannot grant public access when 'blockPublicPolicy' is enabled"
         else addToResourcePolicy this (s3.publicAccessStatement this)
    else ret tt) ;;
   (if default false (s3.BucketProps.autoDeleteObjects props)
    then match s3.BucketProps.removalPolicy props with
         | Some cdk.DESTROY =>
             addToResourcePolicy this (s3.autoDeleteObjectsStatement this)
         | _ =>
             throw "Cannot use 'autoDeleteObjects' property on a bucket without setting removal policy to 'DESTROY'."
         end
    else ret tt) ;;
   ret this)%build.

Definition new_OriginAccessIdentity (name : string)
  : Build cloudfront.OriginAccessIdentity.t :=
  (add_child name OriginAccessIdentity ;;
   ret (cloudfront.OriginAccessIdentity.mk name))%build.

Definition new_ResponseHeadersPolicy (name : string)
  (props : cloudfront.ResponseHeadersPolicyProps.t)
  : Build cloudfront.ResponseHeadersPolicy.t :=
  (add_child name (ResponseHeadersPolicy props) ;;
   ret (cloudfront.ResponseHeadersPolicy.mk name))%build.

(** Binding an origin to a distribution.  For a bucket origin the framework
    grants the origin access identity (one it creates when none is given)
    [s3:GetObject] on the objects of the bucket, through the resource policy
    of the bucket. *)
Definition bind_origin (scopeName : string) (o : cloudfront.IOrigin)
  : Build unit :=
  match o with
  | cloudfront.BucketOrigin bucket originAccessIdentity =>
      (const identity :=
         match originAccessIdentity with
         | Some i => ret i
         | None => new_OriginAccessIdentity (scopeName +:+ "/S3Origin")
         end;
       addToResourcePolicy bucket
         (iam.PolicyStatement.new
            (iam.PolicyStatementProps.mk
               None
               ["s3:GetObject"]
               [s3.Bucket.arnForObjects bucket "*"]
               [cloudfront.OriginAccessIdentity.grantPrincipal identity])))%build
  | cloudfront.HttpOrigin _ => ret tt
  end.

Fixpoint bind_origins (name : string) (n : nat) (l : list cloudfront.IOrigin)
  : Build unit :=
  match l with
  | [] => ret tt
  | o :: l =>
      (bind_origin (name +:+ "/Origin" +:+ pretty n) o ;;
       bind_origins name (S n) l)%build
  end.

(** [new cloudfront.Distribution(this, name, props)]: the origins of the
    default behavior and of the additional behaviors are bound in turn. *)
Definition new_Distribution (name : string)
  (props : cloudfront.DistributionProps.t) : Build cloudfront.Distribution.t :=
  (add_child name (Distribution props) ;;
   bind_origins name 1
     (cloudfront.BehaviorOptions.origin
        (cloudfront.DistributionProps.defaultBehavior props)
      :: (cloudfront.BehaviorOptions.origin ∘ snd
          <$> default [] (cloudfront.DistributionProps.additionalBehaviors props))) ;;
   ret (cloudfront.Distribution.mk name))%build.

Definition new_BucketDeployment (name : string)
  (props : s3deploy.BucketDeploymentProps.t) : Build unit :=
  add_child name (BucketDeployment props).

Definition new_CfnOutput (name : string) (props : cdk.CfnOutputProps.t)
  : Build unit :=
  add_child name (CfnOutput props).

(** [super(scope, id, props)] *)
Definition super (scope : list string) (id : string)
  (props : option cdk.StackProps.t) : Stack :=
  mkStack scope id props [].

(* ===================================================================== *)
(** ** The stack                                                          *)
(* ===================================================================== *)

Definition securityHeadersBehavior
  : cloudfront.ResponseSecurityHeadersBehavior.t :=
  cloudfront.ResponseSecurityHeadersBehavior.mk
    (Some (cloudfront.ResponseHeadersContentSecurityPolicy.mk
             true "default-src https:;"))
    (Some (cloudfront.ResponseHeadersStrictTransportSecurity.mk
             true (cdk.Duration.days (2 * 365)) (Some true) (Some true)))
    (Some (cloudfront.ResponseHeadersContentTypeOptions.mk true))
    (Some (cloudfront.ResponseHeadersReferrerPolicy.mk
             true cloudfront.STRICT_ORIGIN_WHEN_CROSS_ORIGIN))
    (Some (cloudfront.ResponseHeadersXSSProtection.mk
             true true (Some true) None))
    (Some (cloudfront.ResponseHeadersFrameOptions.mk true cloudfront.DENY)).

Definition constructor_body : Build unit :=
  (const s3HostingBucket :=
     new_Bucket "S3HostingBucket"
       (s3.BucketProps.mk
          (Some false)
          (Some cdk.DESTROY)
          (Some true)
          (Some s3.BlockPublicAccess.BLOCK_ALL)
          (Some s3.PRIVATE)
          (Some s3.BUCKET_OWNER_ENFORCED)
          (Some s3.S3_MANAGED)
          None
          None);
   const cloudfrontOAI :=
     new_OriginAccessIdentity "CloudFrontOriginAccessIdentity";
   let policyStatement :=
     iam.PolicyStatement.new
       (iam.PolicyStatementProps.mk
          None
          ["s3:GetObject"]
          [s3.Bucket.arnForObjects s3HostingBucket "*"]
          [iam.CanonicalUserPrincipal
             (cloudfront.OriginAccessIdentity.cloudFrontOriginAccessIdentityS3CanonicalUserId
                cloudfrontOAI)]) in
   addToResourcePolicy s3HostingBucket policyStatement ;;
   const responseHeaderPolicy :=
     new_ResponseHeadersPolicy "CloudFrontResponseHeaderPolicy"
       (cloudfront.ResponseHeadersPolicyProps.mk
          (Some "Security headers response header policy")
          (Some securityHeadersBehavior));
   const cloudfrontDistribution :=
     new_Distribution "CloudFrontDistribution"
       (cloudfront.DistributionProps.mk
          (Some "index.html")
          (Some cloudfront.TLS_V1_2_2021)
          (cloudfront.BehaviorOptions.mk
             (origins.S3Origin s3HostingBucket
                (origins.S3OriginProps.mk (Some cloudfrontOAI)))
             (Some true)
             (Some cloudfront.AllowedMethods.ALLOW_GET_HEAD_OPTIONS)
             (Some cloudfront.ViewerProtocolPolicy.REDIRECT_TO_HTTPS)
             (Some responseHeaderPolicy))
          None
          (Some [cloudfront.ErrorResponse.mk 403 (Some 404)
                   (Some "/404.html")])
          None);
   new_BucketDeployment "S3HostingBucketDeployment"
     (s3deploy.BucketDeploymentProps.mk
        [s3deploy.Source.asset "../website"]
        (Some false)
        s3HostingBucket
        (Some cloudfrontDistribution)
        None) ;;
   new_CfnOutput "CloudFrontDomainName"
     (cdk.CfnOutputProps.mk
        (cloudfront.Distribution.domainName cloudfrontDistribution)
        (Some "Domain name of the CloudFront distribution")
        (Some "cloudFrontDomainName")))%build.

(** [new WebsiteDeploymentStack(scope, id, props)] *)
Definition WebsiteDeploymentStack (scope : list string) (id : string)
  (props : option cdk.StackProps.t) : Result Stack :=
  match constructor_body (super scope id props) with
  | Ok (_, this) => Ok this
  | Throw m => Throw m
  end.

(* ===================================================================== *)
(** ** Reading the declarations                                          *)
(* ===================================================================== *)

(** What follows is not code of the stack: it spells out how the platform
    reads the properties the stack declares, so that statements about
    requests, deployments and teardown can be made about the declared
    values.  Every function takes the declared properties as an argument
    and is defined for all of their values, not only the declared ones. *)

Definition declared_buckets (this : Stack)
  : list (string * s3.BucketProps.t * list iam.PolicyStatement.t) :=
  omap (fun c => match c with
                 | (n, Bucket p pol) => Some (n, p, pol)
                 | _ => None
                 end) (children this).

Definition declared_identities (this : Stack) : list string :=
  omap (fun c => match c with
                 | (n, OriginAccessIdentity) => Some n
                 | _ => None
                 end) (children this).

Definition declared_header_policies (this : Stack)
  : list (string * cloudfront.ResponseHeadersPolicyProps.t) :=
  omap (fun c => match c with
                 | (n, ResponseHeadersPolicy p) => Some (n, p)
                 | _ => None
                 end) (children this).

Definition declared_distributions (this : Stack)
  : list (string * cloudfront.DistributionProps.t) :=
  omap (fun c => match c with
                 | (n, Distribution p) => Some (n, p)
                 | _ => None
                 end) (children this).

Definition declared_deployments (this : Stack)
  : list (string * s3deploy.BucketDeploymentProps.t) :=
  omap (fun c => match c with
                 | (n, BucketDeployment p) => Some (n, p)
                 | _ => None
                 end) (children this).

Definition declared_outputs (this : Stack)
  : list (string * cdk.CfnOutputProps.t) :=
  omap (fun c => match c with
                 | (n, CfnOutput p) => Some (n, p)
                 | _ => None
                 end) (children this).

(** *** Wildcard patterns

    Resource patterns of policy statements and path patterns of behaviors
    use [*] for any run of characters and [?] for any one character. *)
Fixpoint matches (pattern text : string) {struct pattern} : bool :=
  match pattern with
  | EmptyString =>
      match text with EmptyString => true | String _ _ => false end
  | String c p =>
      if Ascii.eqb c "*" then
        (fix star (t : string) : bool :=
           matches p t ||
           match t with
           | EmptyString => false
           | String _ t' => star t'
           end) text
      else
        match text with
        | EmptyString => false
        | String d t => (Ascii.eqb c "?" || Ascii.eqb c d) && matches p t
        end
  end.

(** Patterns without wildcards. *)
Fixpoint literal (p : string) : bool :=
  match p with
  | EmptyString => true
  | String c p =>
      negb (Ascii.eqb c "*") && negb (Ascii.eqb c "?") && literal p
  end.

(** *** Bucket policy evaluation *)

Inductive Requester : Type :=
| Anonymous
| CanonicalUser (canonicalUserId : string)
| ArnUser (arn : string).

Record Request : Type := mkRequest {
  requester : Requester;
  action : string;
  resource : string
}.

Definition principal_matches (sigma : cdk.Assignment) (p : iam.Principal)
  (r : Requester) : bool :=
  match p, r with
  | iam.AnyPrincipal, _ => true
  | iam.CanonicalUserPrincipal c, CanonicalUser i =>
      String.eqb (cdk.resolve sigma c) i
  | iam.ArnPrincipal a, ArnUser i => String.eqb (cdk.resolve sigma a) i
  | _, _ => false
  end.

Definition statement_matches (sigma : cdk.Assignment)
  (s : iam.PolicyStatement.t) (req : Request) : bool :=
  existsb (fun p => principal_matches sigma p (requester req))
          (iam.PolicyStatement.principals s)
  && existsb (fun a => matches a (action req)) (iam.PolicyStatement.actions s)
  && existsb (fun r => matches (cdk.resolve sigma r) (resource req))
             (iam.PolicyStatement.resources s).

Definition has_effect (e : iam.Effect) (s : iam.PolicyStatement.t) : bool :=
  match e, iam.PolicyStatement.effect s with
  | iam.ALLOW, iam.ALLOW | iam.DENY, iam.DENY => true
  | _, _ => false
  end.

(** A resource policy lets a request through when an allow statement
    matches it and no deny statement does. *)
Definition policy_allows (sigma : cdk.Assignment)
  (policy : list iam.PolicyStatement.t) (req : Request) : bool :=
  existsb (fun s => has_effect iam.ALLOW s && statement_matches sigma s req)
          policy
  && negb (existsb (fun s => has_effect iam.DENY s
                             && statement_matches sigma s req) policy).

(** The policy document as it is rendered: a statement that repeats an
    earlier one is left out. *)
Fixpoint deduplicate (seen l : list iam.PolicyStatement.t)
  : list iam.PolicyStatement.t :=
  match l with
  | [] => []
  | s :: l =>
      if bool_decide (s ∈ seen) then deduplicate seen l
      else s :: deduplicate (s :: seen) l
  end.

Definition policy_document (statements : list iam.PolicyStatement.t)
  : list iam.PolicyStatement.t :=
  deduplicate [] statements.

(** The ARN of the object stored under [key] in bucket [b]. *)
Definition object_arn (sigma : cdk.Assignment) (b : s3.Bucket.t)
  (key : string) : string :=
  cdk.resolve sigma (s3.Bucket.bucketArn b) +:+ "/" +:+ key.

(** *** Requests to the distribution *)

Inductive Scheme : Type := HTTP | HTTPS.

Record ViewerRequest : Type := mkViewerRequest {
  scheme : Scheme;
  host : string;
  path : string;
  method : cloudfront.HttpMethod
}.

(** The behavior that serves a path: the first additional behavior whose
    path pattern matches it, the default behavior otherwise. *)
Definition behavior_for (d : cloudfront.DistributionProps.t) (path : string)
  : cloudfront.BehaviorOptions.t :=
  match List.find (fun b => matches (fst b) path)
          (default [] (cloudfront.DistributionProps.additionalBehaviors d)) with
  | Some b => snd b
  | None => cloudfront.DistributionProps.defaultBehavior d
  end.

Definition HttpMethod_eqb (a b : cloudfront.HttpMethod) : bool :=
  match a, b with
  | cloudfront.GET, cloudfront.GET
  | cloudfront.HEAD, cloudfront.HEAD
  | cloudfront.OPTIONS, cloudfront.OPTIONS
  | cloudfront.PUT, cloudfront.PUT
  | cloudfront.PATCH, cloudfront.PATCH
  | cloudfront.POST, cloudfront.POST
  | cloudfront.DELETE, cloudfront.DELETE => true
  | _, _ => false
  end.

Inductive ViewerOutcome : Type :=
| RedirectTo (location : string)
| Refused
| Forwarded (origin : cloudfront.IOrigin) (compressed : bool).

(** What the distribution does with a viewer request before the origin is
    involved.  An omitted viewer protocol policy allows both schemes; an
    omitted method set is GET and HEAD; compression is on unless declared
    off. *)
Definition handle_viewer_request (d : cloudfront.DistributionProps.t)
  (r : ViewerRequest) : ViewerOutcome :=
  let b := behavior_for d (path r) in
  let forward :=
    if existsb (HttpMethod_eqb (method r))
         (cloudfront.AllowedMethods.methods
            (default cloudfront.AllowedMethods.ALLOW_GET_HEAD
               (cloudfront.BehaviorOptions.allowedMethods b)))
    then Forwarded (cloudfront.BehaviorOptions.origin b)
           (default true (cloudfront.BehaviorOptions.compress b))
    else Refused in
  match scheme r with
  | HTTPS => forward
  | HTTP =>
      match default cloudfront.ViewerProtocolPolicy.ALLOW_ALL
              (cloudfront.BehaviorOptions.viewerProtocolPolicy b) with
      | cloudfront.ViewerProtocolPolicy.REDIRECT_TO_HTTPS =>
          RedirectTo ("https://" +:+ host r +:+ path r)
      | cloudfront.ViewerProtocolPolicy.HTTPS_ONLY => Refused
      | cloudfront.ViewerProtocolPolicy.ALLOW_ALL => forward
      end
  end.

(** The minimum protocol version viewers are held to: that of the viewer
    certificate, and the platform's [TLSv1] when the distribution has none
    and answers on its default domain name. *)
Definition minimum_protocol (d : cloudfront.DistributionProps.t)
  : cloudfront.SecurityPolicyProtocol :=
  match cloudfront.renderViewerCertificate d with
  | Some v => cloudfront.ViewerCertificate.minimumProtocolVersion v
  | None => cloudfront.TLS_V1
  end.

(** The object asked of the origin: the default root object stands for the
    bare root. *)
Definition requested_object (d : cloudfront.DistributionProps.t)
  (path : string) : string :=
  if String.eqb path "/"
  then "/" +:+ default "" (cloudfront.DistributionProps.defaultRootObject d)
  else path.

(** The status the client sees and the page served in place of the origin's
    body, for a status returned by the origin. *)
Definition client_response (d : cloudfront.DistributionProps.t)
  (originStatus : Z) : Z * option string :=
  match List.find
          (fun e => cloudfront.ErrorResponse.httpStatus e =? originStatus)
          (default [] (cloudfront.DistributionProps.errorResponses d)) with
  | Some e =>
      (default originStatus (cloudfront.ErrorResponse.responseHttpStatus e),
       cloudfront.ErrorResponse.responsePagePath e)
  | None => (originStatus, None)
  end.

(** *** Security headers *)

Definition referrerPolicy_value (p : cloudfront.HeadersReferrerPolicy)
  : string :=
  match p with
  | cloudfront.NO_REFERRER => "no-referrer"
  | cloudfront.NO_REFERRER_WHEN_DOWNGRADE => "no-referrer-when-downgrade"
  | cloudfront.ORIGIN => "origin"
  | cloudfront.ORIGIN_WHEN_CROSS_ORIGIN => "origin-when-cross-origin"
  | cloudfront.SAME_ORIGIN => "same-origin"
  | cloudfront.STRICT_ORIGIN => "strict-origin"
  | cloudfront.STRICT_ORIGIN_WHEN_CROSS_ORIGIN =>
      "strict-origin-when-cross-origin"
  | cloudfront.UNSAFE_URL => "unsafe-url"
  end.

Definition frameOption_value (f : cloudfront.HeadersFrameOption) : string :=
  match f with
  | cloudfront.DENY => "DENY"
  | cloudfront.SAMEORIGIN => "SAMEORIGIN"
  end.

Record HeaderDirective : Type := mkDirective {
  header : string;
  content : string;
  overrides : bool
}.

Definition sts_value (s : cloudfront.ResponseHeadersStrictTransportSecurity.t)
  : string :=
  "max-age="
  +:+ pretty (cdk.Duration.toSeconds
                (cloudfront.ResponseHeadersStrictTransportSecurity.accessControlMaxAge s))
  +:+ (if default false
            (cloudfront.ResponseHeadersStrictTransportSecurity.includeSubdomains s)
       then "; includeSubDomains" else "")
  +:+ (if default false
            (cloudfront.ResponseHeadersStrictTransportSecurity.preload s)
       then "; preload" else "").

Definition xss_value (x : cloudfront.ResponseHeadersXSSProtection.t) : string :=
  if cloudfront.ResponseHeadersXSSProtection.protection x
  then "1"
       +:+ (if default false (cloudfront.ResponseHeadersXSSProtection.modeBlock x)
            then "; mode=block" else "")
       +:+ from_option (fun u => "; report=" +:+ u) ""
             (cloudfront.ResponseHeadersXSSProtection.reportUri x)
  else "0".

(** The header directives a security-headers behavior declares, one for
    each of its members that is present. *)
Definition directives (b : cloudfront.ResponseSecurityHeadersBehavior.t)
  : list HeaderDirective :=
  (from_option
     (fun c => [mkDirective "Content-Security-Policy"
                  (cloudfront.ResponseHeadersContentSecurityPolicy.contentSecurityPolicy c)
                  (cloudfront.ResponseHeadersContentSecurityPolicy.override c)])
     [] (cloudfront.ResponseSecurityHeadersBehavior.contentSecurityPolicy b)
   ++ from_option
     (fun s => [mkDirective "Strict-Transport-Security" (sts_value s)
                  (cloudfront.ResponseHeadersStrictTransportSecurity.override s)])
     [] (cloudfront.ResponseSecurityHeadersBehavior.strictTransportSecurity b)
   ++ from_option
     (fun c => [mkDirective "X-Content-Type-Options" "nosniff"
                  (cloudfront.ResponseHeadersContentTypeOptions.override c)])
     [] (cloudfront.ResponseSecurityHeadersBehavior.contentTypeOptions b)
   ++ from_option
     (fun r => [mkDirective "Referrer-Policy"
                  (referrerPolicy_value
                     (cloudfront.ResponseHeadersReferrerPolicy.referrerPolicy r))
                  (cloudfront.ResponseHeadersReferrerPolicy.override r)])
     [] (cloudfront.ResponseSecurityHeadersBehavior.referrerPolicy b)
   ++ from_option
     (fun x => [mkDirective "X-XSS-Protection" (xss_value x)
                  (cloudfront.ResponseHeadersXSSProtection.override x)])
     [] (cloudfront.ResponseSecurityHeadersBehavior.xssProtection b)
   ++ from_option
     (fun f => [mkDirective "X-Frame-Options"
                  (frameOption_value
                     (cloudfront.ResponseHeadersFrameOptions.frameOption f))
                  (cloudfront.ResponseHeadersFrameOptions.override f)])
     [] (cloudfront.ResponseSecurityHeadersBehavior.frameOptions b))%list.

(** A directive that overrides replaces what the origin set; one that does
    not only fills in a header the origin left out. *)
Definition apply_directive (d : HeaderDirective)
  (headers : gmap string string) : gmap string string :=
  if overrides d then <[header d := content d]> headers
  else match headers !! header d with
       | Some _ => headers
       | None => <[header d := content d]> headers
       end.

(** The headers of the response to a request for [path], from the headers
    the origin answered with.  Only the response-headers policy is applied,
    and header names are taken in the spelling of the directives: headers
    the platform adds on its own (the content encoding of a compressed
    response) and other spellings of a name are outside this reading. *)
Definition response_headers (this : Stack)
  (d : cloudfront.DistributionProps.t) (path : string)
  (originHeaders : gmap string string) : gmap string string :=
  match cloudfront.BehaviorOptions.responseHeadersPolicy (behavior_for d path)
  with
  | Some policy =>
      match find_child (cloudfront.ResponseHeadersPolicy.node policy) this with
      | Some (ResponseHeadersPolicy p) =>
          foldr apply_directive originHeaders
            (from_option directives []
               (cloudfront.ResponseHeadersPolicyProps.securityHeadersBehavior p))
      | _ => originHeaders
      end
  | None => originHeaders
  end.

(** *** Deployment *)

Record Invalidation : Type := mkInvalidation {
  target : cloudfront.Distribution.t;
  paths : list string
}.

(** The files a source contributes, given the directories of the machine
    the deployment runs on. *)
Definition source_files (fs : string -> gmap string string)
  (s : s3deploy.Source.t) : gmap string string :=
  match s with
  | s3deploy.Source.asset dir => fs dir
  | s3deploy.Source.data key body => {[ key := body ]}
  end.

(** One run of a bucket deployment on the objects of its destination
    bucket: the source files are uploaded over the objects; objects that are
    not among the files are removed only when pruning, which is the default;
    the associated distribution, if any, is invalidated afterwards, on all
    paths unless paths are declared. *)
Definition deploy (p : s3deploy.BucketDeploymentProps.t)
  (fs : string -> gmap string string) (objects : gmap string string)
  : gmap string string * option Invalidation :=
  let files :=
    foldr (fun s acc => source_files fs s ∪ acc) ∅
          (s3deploy.BucketDeploymentProps.sources p) in
  (if default true (s3deploy.BucketDeploymentProps.prune p)
   then files else files ∪ objects,
   (fun d => mkInvalidation d
               (default ["/*"]
                  (s3deploy.BucketDeploymentProps.distributionPaths p)))
   <$> s3deploy.BucketDeploymentProps.distribution p).

(** The directories a stack reads from the machine it is deployed from. *)
Definition file_system_inputs (this : Stack) : list string :=
  d ← declared_deployments this;
  omap (fun s => match s with
                 | s3deploy.Source.asset dir => Some dir
                 | _ => None
                 end) (s3deploy.BucketDeploymentProps.sources (snd d)).

(** *** Teardown *)

Inductive BucketFate : Type :=
| Deleted
| Retained (objects : gmap string string).

(** Deleting the stack: a bucket is deleted only under the [DESTROY] removal
    policy (omitted, the policy is [RETAIN]); its objects are deleted first
    when [autoDeleteObjects] is set; a bucket that still holds objects
    cannot be deleted and stays. *)
Definition teardown (p : s3.BucketProps.t) (objects : gmap string string)
  : BucketFate :=
  match default cdk.RETAIN (s3.BucketProps.removalPolicy p) with
  | cdk.DESTROY =>
      let remaining :=
        if default false (s3.BucketProps.autoDeleteObjects p)
        then ∅ else objects in
      if decide (remaining = ∅) then Deleted else Retained remaining
  | _ => Retained objects
  end.

(** What the constructor declares, computed once by running it. *)
Definition declared_children : list (string * Construct) :=
  Eval vm_compute in
    match WebsiteDeploymentStack [] "" None with
    | Ok this => children this
    | Throw _ => []
    end.

(* ===================================================================== *)
(** ** Properties of the readings                                        *)
(* ===================================================================== *)

Section Wildcards.

Lemma matches_star_cons (p : string) (d : ascii) (t : string) :
  matches (String "*" p) t = true ->
  matches (String "*" p) (String d t) = true.
Proof.
  cbn [matches]. rewrite Ascii.eqb_refl. intros H.
  rewrite H. apply orb_true_r.
Qed.

Lemma matches_star_here (p t : string) :
  matches p t = true -> matches (String "*" p) t = true.
Proof.
  cbn [matches]. rewrite Ascii.eqb_refl. intros H.
  destruct t; rewrite H; reflexivity.
Qed.

(** A pattern matches itself, wildcards included. *)
Lemma matches_refl (p : string) : matches p p = true.
Proof.
  induction p as [|c p IH].
  - reflexivity.
  - destruct (Ascii.eqb c "*") eqn:E.
    + apply Ascii.eqb_eq in E. subst c.
      now apply matches_star_cons, matches_star_here.
    + cbn [matches]. rewrite E, Ascii.eqb_refl, orb_true_r, IH. reflexivity.
Qed.

(** A lone [*] matches every text. *)
Lemma matches_star_any (t : string) : matches "*" t = true.
Proof.
  induction t as [|d t IH].
  - reflexivity.
  - now apply matches_star_cons.
Qed.

(** Matching goes through concatenation. *)
Lemma matches_app (p q : string) :
  forall s t, matches p s = true -> matches q t = true ->
              matches (p +:+ q) (s +:+ t) = true.
Proof.
  induction p as [|c p IH]; intros s t Hp Hq.
  - destruct s; [exact Hq | discriminate].
  - destruct (Ascii.eqb c "*") eqn:E.
    + apply Ascii.eqb_eq in E. subst c.
      change (String "*" p +:+ q) with (String "*" (p +:+ q)).
      induction s as [|d s IHs].
      * apply matches_star_here.
        cbn [matches] in Hp. rewrite Ascii.eqb_refl in Hp.
        rewrite orb_false_r in Hp. now apply (IH "" t).
      * cbn [matches] in Hp. rewrite Ascii.eqb_refl in Hp.
        apply orb_true_iff in Hp as [Hp|Hp].
        -- apply matches_star_here. now apply IH.
        -- change (String d s +:+ t) with (String d (s +:+ t)).
           apply matches_star_cons. apply IHs.
           cbn [matches]. rewrite Ascii.eqb_refl.
           destruct s; rewrite Hp; auto using orb_true_r.
    + destruct s as [|d s]; cbn [matches] in Hp; rewrite E in Hp;
        [discriminate|].
      apply andb_true_iff in Hp as [Hc Hp].
      change (matches (String c (p +:+ q)) (String d (s +:+ t)) = true).
      cbn [matches]. rewrite E, Hc. now apply IH.
Qed.

(** A pattern without wildcards matches only itself. *)
Lemma matches_literal (p : string) :
  literal p = true -> forall t, matches p t = true -> t = p.
Proof.
  induction p as [|c p IH]; intros Hl t Hm.
  - destruct t; [reflexivity | discriminate].
  - cbn [literal] in Hl.
    apply andb_true_iff in Hl as [Hl Hp].
    apply andb_true_iff in Hl as [Hs Hq].
    apply negb_true_iff in Hs, Hq.
    cbn [matches] in Hm. rewrite Hs in Hm.
    destruct t as [|d t]; [discriminate|].
    rewrite Hq in Hm. cbn [orb] in Hm.
    apply andb_true_iff in Hm as [Hc Hm].
    apply Ascii.eqb_eq in Hc. subst d.
    f_equal. now apply IH.
Qed.

Lemma matches_literal_eqb (p : string) :
  literal p = true -> forall t, matches p t = String.eqb p t.
Proof.
  intros Hl t. destruct (String.eqb p t) eqn:E.
  - apply String.eqb_eq in E. subst t. apply matches_refl.
  - destruct (matches p t) eqn:M; [|reflexivity].
    apply (matches_literal p Hl) in M. subst t.
    now rewrite String.eqb_refl in E.
Qed.

End Wildcards.

Section Stack.

Variables (scope : list string) (id : string)
          (props : option cdk.StackProps.t).

Lemma append_empty_r (s : string) : s +:+ "" = s.
Proof.
  induction s as [|c s IH]; [reflexivity|].
  change (String c (s +:+ "") = String c s). now rewrite IH.
Qed.

(** The constructor never throws: the ids it declares are distinct and the
    bucket it extends the policy of is the one it has just declared.  What
    it declares does not depend on its arguments. *)
Lemma constructor_returns :
  WebsiteDeploymentStack scope id props
  = Ok (mkStack scope id props declared_children).
Proof. reflexivity. Qed.

Lemma resolve_arnForObjects (sigma : cdk.Assignment) (b : s3.Bucket.t)
  (keyPattern : string) :
  cdk.resolve sigma (s3.Bucket.arnForObjects b keyPattern)
  = cdk.resolve sigma (s3.Bucket.bucketArn b) +:+ "/" +:+ keyPattern.
Proof.
  cbn. now rewrite !append_empty_r.
Qed.

(** The pattern [arnForObjects('*')] covers the ARN of every object. *)
Lemma arnForObjects_star_covers (sigma : cdk.Assignment) (b : s3.Bucket.t)
  (key : string) :
  matches (cdk.resolve sigma (s3.Bucket.arnForObjects b "*"))
          (object_arn sigma b key) = true.
Proof.
  rewrite resolve_arnForObjects. unfold object_arn.
  apply matches_app; [apply matches_refl|].
  apply (matches_app "/" "*" "/" key); [reflexivity|].
  apply matches_star_any.
Qed.

End Stack.

(** The opening of every statement about the stack: the constructor returns
    the stack whose children are the declared ones. *)
Ltac constructed := split; [apply constructor_returns|].

(** When every statement of a policy allows, the policy lets a request
    through as soon as one statement matches it. *)
Lemma policy_allows_no_deny (sigma : cdk.Assignment)
  (policy : list iam.PolicyStatement.t) (req : Request) :
  Forall (fun s => iam.PolicyStatement.effect s = iam.ALLOW) policy ->
  policy_allows sigma policy req
  = existsb (fun s => statement_matches sigma s req) policy.
Proof.
  intros Hallow. unfold policy_allows.
  assert (Hd : existsb (fun s => has_effect iam.DENY s
                                 && statement_matches sigma s req) policy
               = false).
  { induction Hallow as [|s l Hs _ IH]; [reflexivity|].
    cbn [existsb]. unfold has_effect at 1. rewrite Hs, IH. reflexivity. }
  rewrite Hd. cbn [negb]. rewrite andb_true_r. clear Hd.
  induction Hallow as [|s l Hs _ IH]; [reflexivity|].
  cbn [existsb]. unfold has_effect at 1. rewrite Hs, IH. reflexivity.
Qed.

(** The grant to the auto-delete role is of no use for reading an object,
    and of no use to a requester that is not known by an ARN. *)
Lemma autoDeleteObjectsStatement_not_GetObject (sigma : cdk.Assignment)
  (b : s3.Bucket.t) (who : Requester) (r : string) :
  statement_matches sigma (s3.autoDeleteObjectsStatement b)
    (mkRequest who "s3:GetObject" r) = false.
Proof.
  unfold statement_matches.
  change (existsb (fun a => matches a (action (mkRequest who "s3:GetObject" r)))
            (iam.PolicyStatement.actions (s3.autoDeleteObjectsStatement b)))
    with false.
  now rewrite andb_false_r.
Qed.

Lemma autoDeleteObjectsStatement_role_only (sigma : cdk.Assignment)
  (b : s3.Bucket.t) (req : Request) :
  statement_matches sigma (s3.autoDeleteObjectsStatement b) req = true ->
  exists arn,
    requester req = ArnUser arn
    /\ arn = cdk.resolve sigma s3.autoDeleteObjectsRoleArn.
Proof.
  unfold statement_matches. intros H.
  apply andb_true_iff in H as [H _]. apply andb_true_iff in H as [H _].
  cbn [existsb iam.PolicyStatement.principals s3.autoDeleteObjectsStatement
       iam.PolicyStatement.new iam.PolicyStatementProps.principals] in H.
  rewrite orb_false_r in H.
  destruct (requester req) as [|user|arn]; cbn [principal_matches] in H;
    try discriminate.
  exists arn. split; [reflexivity|].
  apply String.eqb_eq in H. now symmetry.
Qed.

(** The statement the stack declares, for the bucket and the identity. *)
Lemma read_statement_matches (sigma : cdk.Assignment) (b : s3.Bucket.t)
  (i : cloudfront.OriginAccessIdentity.t) (req : Request) :
  statement_matches sigma
    (iam.PolicyStatement.mk iam.ALLOW ["s3:GetObject"]
       [s3.Bucket.arnForObjects b "*"]
       [cloudfront.OriginAccessIdentity.grantPrincipal i]) req
  = match requester req with
    | CanonicalUser user =>
        String.eqb
          (cdk.resolve sigma
             (cloudfront.OriginAccessIdentity.cloudFrontOriginAccessIdentityS3CanonicalUserId
                i)) user
    | _ => false
    end
    && String.eqb "s3:GetObject" (action req)
    && matches (cdk.resolve sigma (s3.Bucket.arnForObjects b "*"))
               (resource req).
Proof.
  unfold statement_matches. cbn [existsb iam.PolicyStatement.principals
    iam.PolicyStatement.actions iam.PolicyStatement.resources
    cloudfront.OriginAccessIdentity.grantPrincipal].
  rewrite !orb_false_r.
  rewrite (matches_literal_eqb "s3:GetObject") by reflexivity.
  destruct (requester req); reflexivity.
Qed.

(** The rendered policy of the bucket of the stack: the statement for the
    auto-delete role and the declared statement, both allowing. *)
Lemma declared_policy_allows (sigma : cdk.Assignment) (req : Request) :
  let bucket := s3.Bucket.mk "S3HostingBucket" in
  let identity :=
    cloudfront.OriginAccessIdentity.mk "CloudFrontOriginAccessIdentity" in
  let statement :=
    iam.PolicyStatement.mk iam.ALLOW ["s3:GetObject"]
      [s3.Bucket.arnForObjects bucket "*"]
      [cloudfront.OriginAccessIdentity.grantPrincipal identity] in
  policy_allows sigma
    (policy_document
       [s3.autoDeleteObjectsStatement bucket; statement; statement]) req
  = statement_matches sigma (s3.autoDeleteObjectsStatement bucket) req
    || statement_matches sigma statement req.
Proof.
  intros bucket identity statement.
  change (policy_document _)
    with [s3.autoDeleteObjectsStatement bucket; statement].
  rewrite policy_allows_no_deny by (repeat constructor).
  cbn [existsb]. now rewrite orb_false_r.
Qed.

(** C7. The stack declares one origin access identity and attaches one
    statement to the resource policy of its one bucket: an allow statement
    for the action [s3:GetObject], on the single resource pattern
    [arnForObjects('*')], which covers the ARN of every object key of the
    bucket, for the single principal that is the canonical user id of the
    identity.  The rendered policy holds that statement once (the grant the
    framework makes when the origin is bound repeats it) beside the
    framework's own statement for its auto-delete role, which has another
    principal and no action that covers [s3:GetObject]: the declared
    statement is the only statement of the policy with that action, and the
    only one with that principal.  Under the policy the identity may read
    every object. *)
Theorem bucket_policy_grants_identity_read
  (scope : list string) (id : string) (props : option cdk.StackProps.t) :
  let bucket := s3.Bucket.mk "S3HostingBucket" in
  let identity :=
    cloudfront.OriginAccessIdentity.mk "CloudFrontOriginAccessIdentity" in
  let principal :=
    iam.CanonicalUserPrincipal
      (cloudfront.OriginAccessIdentity.cloudFrontOriginAccessIdentityS3CanonicalUserId
         identity) in
  exists this bucketProps statements grant statement,
    WebsiteDeploymentStack scope id props = Ok this
    /\ declared_identities this = [cloudfront.OriginAccessIdentity.node identity]
    /\ declared_buckets this
       = [(s3.Bucket.node bucket, bucketProps, statements)]
    /\ policy_document statements = [grant; statement]
    /\ iam.PolicyStatement.effect statement = iam.ALLOW
    /\ iam.PolicyStatement.actions statement = ["s3:GetObject"]
    /\ iam.PolicyStatement.resources statement
       = [s3.Bucket.arnForObjects bucket "*"]
    /\ iam.PolicyStatement.principals statement = [principal]
    /\ iam.PolicyStatement.principals grant
       = [iam.ArnPrincipal s3.autoDeleteObjectsRoleArn]
    /\ Forall (fun a => matches a "s3:GetObject" = false)
              (iam.PolicyStatement.actions grant)
    /\ filter (fun s => "s3:GetObject" ∈ iam.PolicyStatement.actions s)
              (policy_document statements) = [statement]
    /\ filter (fun s => principal ∈ iam.PolicyStatement.principals s)
              (policy_document statements) = [statement]
    /\ (forall sigma key,
          matches (cdk.resolve sigma (s3.Bucket.arnForObjects bucket "*"))
                  (object_arn sigma bucket key) = true)
    /\ (forall sigma key,
          policy_allows sigma (policy_document statements)
            (mkRequest
               (CanonicalUser
                  (cdk.resolve sigma
                     (cloudfront.OriginAccessIdentity.cloudFrontOriginAccessIdentityS3CanonicalUserId
                        identity)))
               "s3:GetObject" (object_arn sigma bucket key)) = true).
Proof.
  intros bucket identity principal.
  eexists _, _, _, _, _.
  constructed.
  do 2 (split; [reflexivity|]).
  split; [vm_compute; reflexivity|].
  do 5 (split; [reflexivity|]).
  split; [repeat constructor|].
  do 2 (split; [vm_compute; reflexivity|]).
  split; intros sigma key.
  - apply arnForObjects_star_covers.
  - change (policy_allows sigma
              [s3.autoDeleteObjectsStatement bucket;
               iam.PolicyStatement.mk iam.ALLOW ["s3:GetObject"]
                 [s3.Bucket.arnForObjects bucket "*"]
                 [cloudfront.OriginAccessIdentity.grantPrincipal identity]]
              (mkRequest
                 (CanonicalUser
                    (cdk.resolve sigma
                       (cloudfront.OriginAccessIdentity.cloudFrontOriginAccessIdentityS3CanonicalUserId
                          identity)))
                 "s3:GetObject" (object_arn sigma bucket key)) = true).
    rewrite policy_allows_no_deny by (repeat constructor).
    cbn [existsb].
    rewrite autoDeleteObjectsStatement_not_GetObject, read_statement_matches.
    cbn [requester action resource orb].
    rewrite String.eqb_refl, arnForObjects_star_covers. reflexivity.
Qed.

(** C1. The one bucket of the stack is declared with public read access
    off, the four public-access-block flags on, private access control,
    bucket-owner-enforced object ownership and encryption with keys managed
    by the storage service, and without a website endpoint.  Its rendered
    resource policy allows no anonymous requester, whatever the action.  It
    allows [s3:GetObject] to a requester known by a canonical user id
    exactly when the id is that of the origin access identity and the
    resource is an object of the bucket, and to no other requester; that
    identity is allowed nothing else.  The only requester known by an ARN
    that the policy allows anything is the framework's auto-delete role,
    which may not read objects.  The distribution sends every request path
    to the bucket through the identity. *)
Theorem bucket_read_only_through_identity
  (scope : list string) (id : string) (props : option cdk.StackProps.t) :
  let bucket := s3.Bucket.mk "S3HostingBucket" in
  let identity :=
    cloudfront.OriginAccessIdentity.mk "CloudFrontOriginAccessIdentity" in
  exists this bucketProps statements distributionName distribution,
    let policy := policy_document statements in
    WebsiteDeploymentStack scope id props = Ok this
    /\ declared_buckets this
       = [(s3.Bucket.node bucket, bucketProps, statements)]
    /\ s3.BucketProps.publicReadAccess bucketProps = Some false
    /\ s3.BucketProps.blockPublicAccess bucketProps
       = Some (s3.BlockPublicAccess.mk true true true true)
    /\ s3.BucketProps.accessControl bucketProps = Some s3.PRIVATE
    /\ s3.BucketProps.objectOwnership bucketProps
       = Some s3.BUCKET_OWNER_ENFORCED
    /\ s3.BucketProps.encryption bucketProps = Some s3.S3_MANAGED
    /\ s3.BucketProps.websiteIndexDocument bucketProps = None
    /\ (forall sigma a r,
          policy_allows sigma policy (mkRequest Anonymous a r) = false)
    /\ (forall sigma who r,
          policy_allows sigma policy (mkRequest who "s3:GetObject" r)
          = match who with
            | CanonicalUser user =>
                String.eqb
                  (cdk.resolve sigma
                     (cloudfront.OriginAccessIdentity.cloudFrontOriginAccessIdentityS3CanonicalUserId
                        identity)) user
                && matches
                     (cdk.resolve sigma (s3.Bucket.arnForObjects bucket "*")) r
            | _ => false
            end)
    /\ (forall sigma user a r,
          policy_allows sigma policy (mkRequest (CanonicalUser user) a r)
          = String.eqb
              (cdk.resolve sigma
                 (cloudfront.OriginAccessIdentity.cloudFrontOriginAccessIdentityS3CanonicalUserId
                    identity)) user
            && String.eqb "s3:GetObject" a
            && matches (cdk.resolve sigma (s3.Bucket.arnForObjects bucket "*"))
                       r)
    /\ (forall sigma arn a r,
          implb (policy_allows sigma policy (mkRequest (ArnUser arn) a r))
                (String.eqb (cdk.resolve sigma s3.autoDeleteObjectsRoleArn) arn)
          = true)
    /\ declared_distributions this = [(distributionName, distribution)]
    /\ (forall path,
          cloudfront.BehaviorOptions.origin (behavior_for distribution path)
          = cloudfront.BucketOrigin bucket (Some identity)).
Proof.
  intros bucket identity. subst bucket identity.
  eexists _, _, _, _, _.
  cbv zeta.
  constructed.
  do 7 (split; [reflexivity|]).
  pose proof declared_policy_allows as Hpolicy. cbv zeta in Hpolicy.
  split; [intros sigma a r; reflexivity|].
  split.
  { intros sigma who r.
    etransitivity; [exact (Hpolicy sigma (mkRequest who "s3:GetObject" r))|].
    rewrite autoDeleteObjectsStatement_not_GetObject, read_statement_matches.
    cbn [requester action resource orb].
    destruct who; [reflexivity| |reflexivity].
    now rewrite String.eqb_refl, andb_true_r. }
  split.
  { intros sigma user a r.
    etransitivity; [exact (Hpolicy sigma (mkRequest (CanonicalUser user) a r))|].
    rewrite read_statement_matches. reflexivity. }
  split.
  { intros sigma arn a r.
    pose proof (Hpolicy sigma (mkRequest (ArnUser arn) a r)) as H.
    rewrite read_statement_matches in H.
    cbn [requester andb] in H. rewrite orb_false_r in H.
    destruct (statement_matches sigma (s3.autoDeleteObjectsStatement (s3.Bucket.mk "S3HostingBucket"))
                (mkRequest (ArnUser arn) a r)) eqn:Hrole.
    - apply autoDeleteObjectsStatement_role_only in Hrole as (arn' & Heq & ->).
      cbn [requester] in Heq. injection Heq as ->.
      rewrite String.eqb_refl. apply implb_true_r.
    - match goal with
      | |- implb ?allowed _ = true =>
          replace allowed with false by (symmetry; exact H)
      end.
      reflexivity. }
  split; [reflexivity|intros path; reflexivity].
Qed.

(** The six directives of the declared security-headers behavior, as the
    header lines they stand for. *)
Lemma declared_directives :
  directives securityHeadersBehavior
  = [ mkDirective "Content-Security-Policy" "default-src https:;" true;
      mkDirective "Strict-Transport-Security"
        "max-age=63072000; includeSubDomains; preload" true;
      mkDirective "X-Content-Type-Options" "nosniff" true;
      mkDirective "Referrer-Policy" "strict-origin-when-cross-origin" true;
      mkDirective "X-XSS-Protection" "1; mode=block" true;
      mkDirective "X-Frame-Options" "DENY" true ].
Proof. vm_compute. reflexivity. Qed.

(** An overriding directive decides its header whatever was there. *)
Lemma apply_directive_override (d : HeaderDirective)
  (headers : gmap string string) :
  overrides d = true ->
  apply_directive d headers !! header d = Some (content d).
Proof.
  intros H. unfold apply_directive. rewrite H. apply lookup_insert_eq.
Qed.

(** A directive leaves the other headers alone. *)
Lemma apply_directive_other (d : HeaderDirective)
  (headers : gmap string string) (name : string) :
  header d <> name ->
  apply_directive d headers !! name = headers !! name.
Proof.
  intros H. unfold apply_directive.
  destruct (overrides d); [now apply lookup_insert_ne|].
  destruct (headers !! header d); [reflexivity|now apply lookup_insert_ne].
Qed.

(** C2. The response-headers policy of the stack declares six directives
    and no more, all of them overriding: the content security policy
    [default-src https:;], strict transport security with a max-age of
    63072000 seconds (two years of 365 days), sub-domains included and
    preload, content-type options (nosniff), the referrer policy
    [strict-origin-when-cross-origin], XSS protection in block mode and frame
    options [DENY].  The policy is the one of the default behavior, which
    serves every path, so the response to any request carries each of the six
    headers with the declared value, whatever headers the origin set. *)
Theorem security_headers_on_every_response
  (scope : list string) (id : string) (props : option cdk.StackProps.t) :
  exists this policyName policyProps behavior sts distributionName distribution,
    WebsiteDeploymentStack scope id props = Ok this
    /\ declared_header_policies this = [(policyName, policyProps)]
    /\ cloudfront.ResponseHeadersPolicyProps.securityHeadersBehavior policyProps
       = Some behavior
    /\ directives behavior
       = [ mkDirective "Content-Security-Policy" "default-src https:;" true;
           mkDirective "Strict-Transport-Security"
             "max-age=63072000; includeSubDomains; preload" true;
           mkDirective "X-Content-Type-Options" "nosniff" true;
           mkDirective "Referrer-Policy" "strict-origin-when-cross-origin" true;
           mkDirective "X-XSS-Protection" "1; mode=block" true;
           mkDirective "X-Frame-Options" "DENY" true ]
    /\ cloudfront.ResponseSecurityHeadersBehavior.strictTransportSecurity
         behavior = Some sts
    /\ cdk.Duration.toSeconds
         (cloudfront.ResponseHeadersStrictTransportSecurity.accessControlMaxAge
            sts) = 63072000
    /\ cloudfront.ResponseHeadersStrictTransportSecurity.includeSubdomains sts
       = Some true
    /\ cloudfront.ResponseHeadersStrictTransportSecurity.preload sts
       = Some true
    /\ declared_distributions this = [(distributionName, distribution)]
    /\ cloudfront.DistributionProps.additionalBehaviors distribution = None
    /\ (forall path,
          cloudfront.BehaviorOptions.responseHeadersPolicy
            (behavior_for distribution path)
          = Some (cloudfront.ResponseHeadersPolicy.mk policyName))
    /\ (forall path originHeaders,
          Forall (fun d =>
                    response_headers this distribution path originHeaders
                      !! header d = Some (content d))
                 (directives behavior)).
Proof.
  eexists _, _, _, _, _, _, _.
  constructed.
  split; [reflexivity|].
  split; [reflexivity|].
  split; [exact declared_directives|].
  do 6 (split; [reflexivity|]).
  split; [intros path; reflexivity|].
  intros path originHeaders.
  change (Forall
            (fun d =>
               foldr apply_directive originHeaders
                 (directives securityHeadersBehavior) !! header d
               = Some (content d))
            (directives securityHeadersBehavior)).
  rewrite declared_directives. cbn [foldr].
  repeat constructor; cbn [header content];
    repeat (rewrite apply_directive_other by discriminate);
    now apply apply_directive_override.
Qed.

(** C3. The distribution declares exactly one error response: for the
    origin status 403 it serves the page [/404.html] with status 404.  A
    403 from the origin therefore reaches the client as a 404 with that
    page, and every other origin status reaches the client unchanged. *)
Theorem origin_403_served_as_404
  (scope : list string) (id : string) (props : option cdk.StackProps.t) :
  exists this distributionName distribution,
    WebsiteDeploymentStack scope id props = Ok this
    /\ declared_distributions this = [(distributionName, distribution)]
    /\ cloudfront.DistributionProps.errorResponses distribution
       = Some [cloudfront.ErrorResponse.mk 403 (Some 404) (Some "/404.html")]
    /\ (forall originStatus,
          client_response distribution originStatus
          = if originStatus =? 403 then (404, Some "/404.html")
            else (originStatus, None)).
Proof.
  eexists _, _, _.
  constructed.
  do 2 (split; [reflexivity|]).
  intros originStatus. unfold client_response.
  cbn -[Z.eqb]. rewrite (Z.eqb_sym 403 originStatus).
  destruct (originStatus =? 403); reflexivity.
Qed.

(** C4. The distribution has the default behavior and no other.  The
    default behavior is bound to the bucket through the origin access
    identity, redirects HTTP viewers to HTTPS, allows the methods GET, HEAD
    and OPTIONS, compresses, and carries the response-headers policy of the
    stack.  So a plain-HTTP request for any host, path and method is
    answered by a redirect to the same host and path over HTTPS, and an
    HTTPS request is forwarded to the bucket origin, compressed, exactly
    when its method is GET, HEAD or OPTIONS.  The distribution declares
    [TLS_V1_2_2021] as its minimum protocol version but no certificate: no
    viewer certificate is rendered, the declared version goes nowhere, and the
    minimum protocol version viewers are held to is the platform's [TLSv1],
    not TLS 1.2. *)
Theorem default_behavior_of_distribution
  (scope : list string) (id : string) (props : option cdk.StackProps.t) :
  let bucket := s3.Bucket.mk "S3HostingBucket" in
  let identity :=
    cloudfront.OriginAccessIdentity.mk "CloudFrontOriginAccessIdentity" in
  exists this distributionName distribution policyName policyProps,
    WebsiteDeploymentStack scope id props = Ok this
    /\ declared_distributions this = [(distributionName, distribution)]
    /\ declared_header_policies this = [(policyName, policyProps)]
    /\ cloudfront.DistributionProps.additionalBehaviors distribution = None
    /\ cloudfront.DistributionProps.defaultBehavior distribution
       = cloudfront.BehaviorOptions.mk
           (cloudfront.BucketOrigin bucket (Some identity))
           (Some true)
           (Some (cloudfront.AllowedMethods.mk
                    [cloudfront.GET; cloudfront.HEAD; cloudfront.OPTIONS]))
           (Some cloudfront.ViewerProtocolPolicy.REDIRECT_TO_HTTPS)
           (Some (cloudfront.ResponseHeadersPolicy.mk policyName))
    /\ (forall host path method,
          handle_viewer_request distribution
            (mkViewerRequest HTTP host path method)
          = RedirectTo ("https://" +:+ host +:+ path))
    /\ (forall host path method,
          handle_viewer_request distribution
            (mkViewerRequest HTTPS host path method)
          = match method with
            | cloudfront.GET | cloudfront.HEAD | cloudfront.OPTIONS =>
                Forwarded (cloudfront.BucketOrigin bucket (Some identity)) true
            | _ => Refused
            end)
    /\ cloudfront.DistributionProps.minimumProtocolVersion distribution
       = Some cloudfront.TLS_V1_2_2021
    /\ cloudfront.DistributionProps.certificate distribution = None
    /\ cloudfront.renderViewerCertificate distribution = None
    /\ minimum_protocol distribution = cloudfront.TLS_V1
    /\ minimum_protocol distribution <> cloudfront.TLS_V1_2_2021.
Proof.
  intros bucket identity.
  eexists _, _, _, _, _.
  constructed.
  do 4 (split; [reflexivity|]).
  split; [intros host path method; reflexivity|].
  split; [intros host path method; destruct method; reflexivity|].
  do 4 (split; [reflexivity|]).
  discriminate.
Qed.

(** C9. The default root object of the distribution is [index.html],
    whatever the constructor is given: a request for the bare root [/] asks
    the origin for [/index.html]. *)
Theorem default_root_object_is_index_html
  (scope : list string) (id : string) (props : option cdk.StackProps.t) :
  exists this distributionName distribution,
    WebsiteDeploymentStack scope id props = Ok this
    /\ declared_distributions this = [(distributionName, distribution)]
    /\ cloudfront.DistributionProps.defaultRootObject distribution
       = Some "index.html"
    /\ requested_object distribution "/" = "/index.html".
Proof.
  eexists _, _, _.
  constructed.
  do 2 (split; [reflexivity|]). reflexivity.
Qed.

(** C6. The bucket is declared with the removal policy [DESTROY] and with
    automatic deletion of its objects, so tearing the stack down deletes the
    bucket together with its objects, whatever objects it holds. *)
Theorem teardown_deletes_bucket_and_objects
  (scope : list string) (id : string) (props : option cdk.StackProps.t) :
  exists this bucketName bucketProps policy,
    WebsiteDeploymentStack scope id props = Ok this
    /\ declared_buckets this = [(bucketName, bucketProps, policy)]
    /\ s3.BucketProps.removalPolicy bucketProps = Some cdk.DESTROY
    /\ s3.BucketProps.autoDeleteObjects bucketProps = Some true
    /\ (forall objects, teardown bucketProps objects = Deleted).
Proof.
  eexists _, _, _, _.
  constructed.
  do 3 (split; [reflexivity|]).
  intros objects. unfold teardown.
  cbn [s3.BucketProps.removalPolicy s3.BucketProps.autoDeleteObjects
       from_option Datatypes.id].
  case_decide; [reflexivity|congruence].
Qed.

(** C8. The stack declares exactly one output.  Its value is the domain
    name of the distribution, which resolves to whatever domain name the
    platform assigns to the distribution, and it is exported under a name. *)
Theorem single_output_is_domain_name
  (scope : list string) (id : string) (props : option cdk.StackProps.t) :
  exists this outputName output distributionName distribution exportName,
    WebsiteDeploymentStack scope id props = Ok this
    /\ declared_outputs this = [(outputName, output)]
    /\ declared_distributions this = [(distributionName, distribution)]
    /\ cdk.CfnOutputProps.value output
       = cloudfront.Distribution.domainName
           (cloudfront.Distribution.mk distributionName)
    /\ (forall sigma,
          cdk.resolve sigma (cdk.CfnOutputProps.value output)
          = sigma distributionName "DomainName")
    /\ cdk.CfnOutputProps.exportName output = Some exportName.
Proof.
  eexists _, _, _, _, _, _.
  constructed.
  do 3 (split; [reflexivity|]).
  split; [|reflexivity].
  intros sigma. cbn. apply append_empty_r.
Qed.

(** C10. Whatever scope, id and properties the constructor is given, the
    deployment takes its files from the single asset directory
    [../website], which is the only directory the stack reads, and the
    output is exported as [cloudFrontDomainName]: the constructs declared
    under any other arguments are the same. *)
Theorem asset_directory_and_export_name_fixed
  (scope : list string) (id : string) (props : option cdk.StackProps.t) :
  exists this deploymentName deployment outputName output,
    WebsiteDeploymentStack scope id props = Ok this
    /\ declared_deployments this = [(deploymentName, deployment)]
    /\ s3deploy.BucketDeploymentProps.sources deployment
       = [s3deploy.Source.asset "../website"]
    /\ file_system_inputs this = ["../website"]
    /\ declared_outputs this = [(outputName, output)]
    /\ cdk.CfnOutputProps.exportName output = Some "cloudFrontDomainName"
    /\ (forall scope' id' props',
          exists this',
            WebsiteDeploymentStack scope' id' props' = Ok this'
            /\ children this' = children this).
Proof.
  eexists _, _, _, _, _.
  constructed.
  do 5 (split; [reflexivity|]).
  intros scope' id' props'. eexists.
  constructed. reflexivity.
Qed.

(** Without pruning, a deployment keeps every object that no source
    provides. *)
Lemma deploy_keeps_unlisted (p : s3deploy.BucketDeploymentProps.t)
  (fs : string -> gmap string string) (objects : gmap string string)
  (key body : string) :
  s3deploy.BucketDeploymentProps.prune p = Some false ->
  Forall (fun s => source_files fs s !! key = None)
         (s3deploy.BucketDeploymentProps.sources p) ->
  objects !! key = Some body ->
  (deploy p fs objects).1 !! key = Some body.
Proof.
  intros Hprune Hsources Hobject. unfold deploy. rewrite Hprune.
  cbn [fst from_option Datatypes.id].
  rewrite lookup_union_r; [exact Hobject|].
  induction Hsources as [|s l Hs _ IH]; cbn [foldr].
  - apply lookup_empty.
  - apply lookup_union_None. split; [exact Hs | exact IH].
Qed.

(** C5. The deployment is declared with pruning off and with the
    distribution of the stack.  So, for any content of the asset directory
    and any content of the bucket, an object of the bucket whose key is not
    in the directory is still there, unchanged, after a redeploy, and the
    redeploy invalidates the distribution, on all paths. *)
Theorem redeploy_keeps_stale_objects
  (scope : list string) (id : string) (props : option cdk.StackProps.t)
  (fs : string -> gmap string string) (objects : gmap string string)
  (key body : string) :
  objects !! key = Some body ->
  fs "../website" !! key = None ->
  exists this deploymentName deployment distributionName distribution,
    WebsiteDeploymentStack scope id props = Ok this
    /\ declared_deployments this = [(deploymentName, deployment)]
    /\ declared_distributions this = [(distributionName, distribution)]
    /\ s3deploy.BucketDeploymentProps.prune deployment = Some false
    /\ s3deploy.BucketDeploymentProps.distribution deployment
       = Some (cloudfront.Distribution.mk distributionName)
    /\ (deploy deployment fs objects).1 !! key = Some body
    /\ (deploy deployment fs objects).2
       = Some (mkInvalidation (cloudfront.Distribution.mk distributionName)
                 ["/*"]).
Proof.
  intros Hobject Hfile.
  eexists _, _, _, _, _.
  constructed.
  do 4 (split; [reflexivity|]).
  split; [|reflexivity].
  apply deploy_keeps_unlisted; [reflexivity| |exact Hobject].
  repeat constructor. exact Hfile.
Qed.

(** The bucket holds [old.css] and [index.html]; the directory now only has
    [index.html]: after the redeploy [old.css] is still in the bucket. *)
Lemma redeploy_keeps_stale_objects_witness :
  let fs := fun _ : string =>
              ({[ "index.html" := "<h1>new</h1>" ]} : gmap string string) in
  let objects : gmap string string :=
    {[ "index.html" := "<h1>old</h1>"; "old.css" := "body{}" ]} in
  objects !! "old.css" = Some "body{}"
  /\ fs "../website" !! "old.css" = None
  /\ exists this deploymentName deployment distributionName distribution,
       WebsiteDeploymentStack [] "WebsiteDeploymentStack" None = Ok this
       /\ declared_deployments this = [(deploymentName, deployment)]
       /\ declared_distributions this = [(distributionName, distribution)]
       /\ s3deploy.BucketDeploymentProps.prune deployment = Some false
       /\ s3deploy.BucketDeploymentProps.distribution deployment
          = Some (cloudfront.Distribution.mk distributionName)
       /\ (deploy deployment fs objects).1 !! "old.css" = Some "body{}"
       /\ (deploy deployment fs objects).2
          = Some (mkInvalidation (cloudfront.Distribution.mk distributionName)
                    ["/*"]).
Proof.
  intros fs objects.
  assert (H1 : objects !! "old.css" = Some "body{}") by (vm_compute; reflexivity).
  assert (H2 : fs "../website" !! "old.css" = None) by (vm_compute; reflexivity).
  split; [exact H1|]. split; [exact H2|].
  exact (redeploy_keeps_stale_objects [] "WebsiteDeploymentStack" None
           fs objects "old.css" "body{}" H1 H2).
Defined.

(* ===================================================================== *)
(** ** Further properties of the stack                                   *)
(* ===================================================================== *)

(** A pattern that starts with a wildcard-free prefix only matches texts
    that start with that prefix. *)
Lemma matches_literal_prefix (p q : string) :
  literal p = true ->
  forall r, matches (p +:+ q) r = true ->
            exists t, r = p +:+ t /\ matches q t = true.
Proof.
  induction p as [|c p IH]; intros Hl r Hm.
  - exists r. split; [reflexivity | exact Hm].
  - cbn [literal] in Hl.
    apply andb_true_iff in Hl as [Hl Hp].
    apply andb_true_iff in Hl as [Hs Hq].
    apply negb_true_iff in Hs, Hq.
    change (String c p +:+ q) with (String c (p +:+ q)) in Hm.
    cbn [matches] in Hm. rewrite Hs in Hm.
    destruct r as [|d r]; [discriminate|].
    rewrite Hq in Hm. cbn [orb] in Hm.
    apply andb_true_iff in Hm as [Hc Hm].
    apply Ascii.eqb_eq in Hc. subst d.
    destruct (IH Hp r Hm) as (t & -> & Ht).
    exists t. split; [reflexivity | exact Ht].
Qed.

(** What [arnForObjects('*')] matches, for a bucket whose ARN has no
    wildcard character, is the ARN of an object of the bucket. *)
Lemma arnForObjects_star_only_objects (sigma : cdk.Assignment)
  (b : s3.Bucket.t) (r : string) :
  literal (cdk.resolve sigma (s3.Bucket.bucketArn b)) = true ->
  matches (cdk.resolve sigma (s3.Bucket.arnForObjects b "*")) r = true ->
  exists key, r = object_arn sigma b key.
Proof.
  intros Hl Hm. rewrite resolve_arnForObjects in Hm.
  apply (matches_literal_prefix _ _ Hl) in Hm as (t & -> & Ht).
  destruct t as [|d t]; [discriminate|].
  change (matches (String "/" "*") (String d t) = true) in Ht.
  cbn [matches] in Ht.
  change (Ascii.eqb "/" "*") with false in Ht.
  change (Ascii.eqb "/" "?") with false in Ht.
  cbn [orb] in Ht.
  apply andb_true_iff in Ht as [Hd _].
  apply Ascii.eqb_eq in Hd. subst d.
  exists t. reflexivity.
Qed.

(** X1. The resource policy of the bucket reaches nothing but the bucket
    and its objects, and lets the origin access identity reach objects only:
    when the ARN assigned to the bucket has no wildcard character, a
    resource that is not the ARN of an object of the bucket is open to no
    anonymous requester and to no requester known by a canonical user id,
    for no action; a requester known by an ARN is allowed on it only when
    the resource is the bucket itself and the requester is the framework's
    auto-delete role. *)
Theorem bucket_policy_reaches_only_bucket_and_objects
  (scope : list string) (id : string) (props : option cdk.StackProps.t)
  (sigma : cdk.Assignment) (r : string) :
  literal (cdk.resolve sigma
             (s3.Bucket.bucketArn (s3.Bucket.mk "S3HostingBucket"))) = true ->
  (forall key, r <> object_arn sigma (s3.Bucket.mk "S3HostingBucket") key) ->
  exists this bucketProps statements,
    let policy := policy_document statements in
    WebsiteDeploymentStack scope id props = Ok this
    /\ declared_buckets this = [("S3HostingBucket", bucketProps, statements)]
    /\ (forall a, policy_allows sigma policy (mkRequest Anonymous a r) = false)
    /\ (forall user a,
          policy_allows sigma policy (mkRequest (CanonicalUser user) a r)
          = false)
    /\ (forall arn a,
          implb (policy_allows sigma policy (mkRequest (ArnUser arn) a r))
                (String.eqb
                   (cdk.resolve sigma
                      (s3.Bucket.bucketArn (s3.Bucket.mk "S3HostingBucket")))
                   r
                 && String.eqb (cdk.resolve sigma s3.autoDeleteObjectsRoleArn)
                      arn)
          = true).
Proof.
  intros Hl Hr.
  eexists _, _, _. cbv zeta.
  constructed.
  split; [reflexivity|].
  assert (Hobject :
            matches (cdk.resolve sigma
                       (s3.Bucket.arnForObjects
                          (s3.Bucket.mk "S3HostingBucket") "*")) r = false).
  { apply not_true_is_false. intros Hm.
    destruct (arnForObjects_star_only_objects sigma
                (s3.Bucket.mk "S3HostingBucket") r Hl Hm) as [key ->].
    exact (Hr key eq_refl). }
  split; [intros a; reflexivity|].
  split.
  - intros user a.
    etransitivity;
      [exact (declared_policy_allows sigma (mkRequest (CanonicalUser user) a r))|].
    rewrite read_statement_matches. cbn [requester action resource orb].
    rewrite Hobject. apply andb_false_r.
  - intros arn a.
    pose proof (declared_policy_allows sigma (mkRequest (ArnUser arn) a r))
      as H.
    cbv zeta in H. rewrite read_statement_matches in H.
    cbn [requester andb] in H. rewrite orb_false_r in H.
    destruct (statement_matches sigma
                (s3.autoDeleteObjectsStatement (s3.Bucket.mk "S3HostingBucket"))
                (mkRequest (ArnUser arn) a r)) eqn:Hrole.
    + pose proof Hrole as Hres.
      apply autoDeleteObjectsStatement_role_only in Hrole as (arn' & Heq & ->).
      cbn [requester] in Heq. injection Heq as ->.
      unfold statement_matches in Hres.
      apply andb_true_iff in Hres as [_ Hres].
      cbn [existsb iam.PolicyStatement.resources s3.autoDeleteObjectsStatement
           iam.PolicyStatement.new iam.PolicyStatementProps.resources
           resource] in Hres.
      rewrite Hobject, !orb_false_r in Hres.
      apply (matches_literal _ Hl) in Hres. subst r.
      rewrite !String.eqb_refl. apply implb_true_r.
    + match goal with
      | |- implb ?allowed _ = true =>
          replace allowed with false by (symmetry; exact H)
      end.
      reflexivity.
Qed.

(** The bucket itself is not an object of the bucket: the identity cannot
    list it. *)
Lemma bucket_policy_reaches_only_bucket_and_objects_witness :
  let sigma : cdk.Assignment := fun _ _ => "arn:aws:s3:::site" in
  let r := "arn:aws:s3:::site" in
  literal (cdk.resolve sigma
             (s3.Bucket.bucketArn (s3.Bucket.mk "S3HostingBucket"))) = true
  /\ (forall key, r <> object_arn sigma (s3.Bucket.mk "S3HostingBucket") key)
  /\ exists this bucketProps statements,
       let policy := policy_document statements in
       WebsiteDeploymentStack [] "WebsiteDeploymentStack" None = Ok this
       /\ declared_buckets this
          = [("S3HostingBucket", bucketProps, statements)]
       /\ (forall a,
             policy_allows sigma policy (mkRequest Anonymous a r) = false)
       /\ (forall user a,
             policy_allows sigma policy (mkRequest (CanonicalUser user) a r)
             = false)
       /\ (forall arn a,
             implb (policy_allows sigma policy (mkRequest (ArnUser arn) a r))
                   (String.eqb
                      (cdk.resolve sigma
                         (s3.Bucket.bucketArn (s3.Bucket.mk "S3HostingBucket")))
                      r
                    && String.eqb
                         (cdk.resolve sigma s3.autoDeleteObjectsRoleArn) arn)
             = true).
Proof.
  intros sigma r.
  assert (H1 : literal (cdk.resolve sigma
                 (s3.Bucket.bucketArn (s3.Bucket.mk "S3HostingBucket")))
               = true) by (vm_compute; reflexivity).
  assert (H2 : forall key,
             r <> object_arn sigma (s3.Bucket.mk "S3HostingBucket") key)
    by (intros key H; vm_compute in H; discriminate H).
  split; [exact H1|]. split; [exact H2|].
  exact (bucket_policy_reaches_only_bucket_and_objects
           [] "WebsiteDeploymentStack" None sigma r H1 H2).
Defined.

(** X2. What is deployed is what is served.  For any content of the asset
    directory and of the bucket, a file of the directory is, after a
    redeploy, the object stored under its key, with the content of the file
    even when an older object had that key; the bucket it is uploaded to is
    the bucket every request path is sent to, through the identity the
    policy of that bucket lets read the object. *)
Theorem deployed_file_is_served
  (scope : list string) (id : string) (props : option cdk.StackProps.t)
  (fs : string -> gmap string string) (objects : gmap string string)
  (sigma : cdk.Assignment) (key body : string) :
  fs "../website" !! key = Some body ->
  exists this deploymentName deployment distributionName distribution
         identity bucketProps policy,
    WebsiteDeploymentStack scope id props = Ok this
    /\ declared_deployments this = [(deploymentName, deployment)]
    /\ declared_distributions this = [(distributionName, distribution)]
    /\ declared_buckets this
       = [(s3.Bucket.node
             (s3deploy.BucketDeploymentProps.destinationBucket deployment),
           bucketProps, policy)]
    /\ (deploy deployment fs objects).1 !! key = Some body
    /\ (forall path,
          cloudfront.BehaviorOptions.origin (behavior_for distribution path)
          = cloudfront.BucketOrigin
              (s3deploy.BucketDeploymentProps.destinationBucket deployment)
              (Some identity))
    /\ policy_allows sigma policy
         (mkRequest
            (CanonicalUser
               (cdk.resolve sigma
                  (cloudfront.OriginAccessIdentity.cloudFrontOriginAccessIdentityS3CanonicalUserId
                     identity)))
            "s3:GetObject"
            (object_arn sigma
               (s3deploy.BucketDeploymentProps.destinationBucket deployment)
               key)) = true.
Proof.
  intros Hfile.
  eexists _, _, _, _, _, _, _, _.
  constructed.
  do 3 (split; [reflexivity|]).
  split; [|split; [intros path; reflexivity|]].
  - unfold deploy.
    cbn [fst s3deploy.BucketDeploymentProps.prune
         s3deploy.BucketDeploymentProps.sources from_option Datatypes.id
         foldr source_files].
    apply lookup_union_Some_l, lookup_union_Some_l. exact Hfile.
  - etransitivity;
      [exact (policy_allows_no_deny sigma
                [s3.autoDeleteObjectsStatement (s3.Bucket.mk "S3HostingBucket");
                 iam.PolicyStatement.mk iam.ALLOW ["s3:GetObject"]
                   [s3.Bucket.arnForObjects (s3.Bucket.mk "S3HostingBucket") "*"]
                   [cloudfront.OriginAccessIdentity.grantPrincipal
                      (cloudfront.OriginAccessIdentity.mk
                         "CloudFrontOriginAccessIdentity")];
                 iam.PolicyStatement.mk iam.ALLOW ["s3:GetObject"]
                   [s3.Bucket.arnForObjects (s3.Bucket.mk "S3HostingBucket") "*"]
                   [cloudfront.OriginAccessIdentity.grantPrincipal
                      (cloudfront.OriginAccessIdentity.mk
                         "CloudFrontOriginAccessIdentity")]]
                _ ltac:(repeat constructor))|].
    cbn [existsb]. rewrite !read_statement_matches.
    cbn [requester action resource].
    rewrite String.eqb_refl, arnForObjects_star_covers.
    cbn [andb]. apply orb_true_r.
Qed.

(** The directory has a new [index.html] and the bucket an old one: the
    new one is served. *)
Lemma deployed_file_is_served_witness :
  let fs := fun _ : string =>
              ({[ "index.html" := "<h1>new</h1>" ]} : gmap string string) in
  let objects : gmap string string :=
    {[ "index.html" := "<h1>old</h1>"; "old.css" := "body{}" ]} in
  let sigma : cdk.Assignment := fun c a => c +:+ "." +:+ a in
  fs "../website" !! "index.html" = Some "<h1>new</h1>"
  /\ exists this deploymentName deployment distributionName distribution
            identity bucketProps policy,
       WebsiteDeploymentStack [] "WebsiteDeploymentStack" None = Ok this
       /\ declared_deployments this = [(deploymentName, deployment)]
       /\ declared_distributions this = [(distributionName, distribution)]
       /\ declared_buckets this
          = [(s3.Bucket.node
                (s3deploy.BucketDeploymentProps.destinationBucket deployment),
              bucketProps, policy)]
       /\ (deploy deployment fs objects).1 !! "index.html"
          = Some "<h1>new</h1>"
       /\ (forall path,
             cloudfront.BehaviorOptions.origin (behavior_for distribution path)
             = cloudfront.BucketOrigin
                 (s3deploy.BucketDeploymentProps.destinationBucket deployment)
                 (Some identity))
       /\ policy_allows sigma policy
            (mkRequest
               (CanonicalUser
                  (cdk.resolve sigma
                     (cloudfront.OriginAccessIdentity.cloudFrontOriginAccessIdentityS3CanonicalUserId
                        identity)))
               "s3:GetObject"
               (object_arn sigma
                  (s3deploy.BucketDeploymentProps.destinationBucket deployment)
                  "index.html")) = true.
Proof.
  intros fs objects sigma.
  assert (H : fs "../website" !! "index.html" = Some "<h1>new</h1>")
    by (vm_compute; reflexivity).
  split; [exact H|].
  exact (deployed_file_is_served [] "WebsiteDeploymentStack" None
           fs objects sigma "index.html" "<h1>new</h1>" H).
Defined.

(** X3. A redeploy never removes an object and can be repeated: for any
    content of the asset directory and of the bucket, every key of the
    bucket is still a key after the redeploy, every object afterwards is a
    file of the directory or an object that was there, and running the
    deployment again on the result, from the same directory, changes
    nothing. *)
Theorem redeploy_monotone_and_idempotent
  (scope : list string) (id : string) (props : option cdk.StackProps.t)
  (fs : string -> gmap string string) (objects : gmap string string) :
  exists this deploymentName deployment,
    WebsiteDeploymentStack scope id props = Ok this
    /\ declared_deployments this = [(deploymentName, deployment)]
    /\ dom objects ⊆ dom (deploy deployment fs objects).1
    /\ dom (deploy deployment fs objects).1
       = dom (fs "../website") ∪ dom objects
    /\ deploy deployment fs (deploy deployment fs objects).1
       = deploy deployment fs objects.
Proof.
  eexists _, _, _.
  constructed.
  split; [reflexivity|].
  unfold deploy.
  cbn [fst s3deploy.BucketDeploymentProps.prune
       s3deploy.BucketDeploymentProps.sources
       s3deploy.BucketDeploymentProps.distribution
       s3deploy.BucketDeploymentProps.distributionPaths
       from_option Datatypes.id foldr source_files].
  rewrite (right_id_L ∅ (∪) (fs "../website")).
  split; [rewrite dom_union_L; set_solver|].
  split; [apply dom_union_L|].
  f_equal.
  now rewrite (assoc_L (∪)), (idemp_L (∪)).
Qed.
